(** * go-eth2-wallet-distributed: accounts, wallet, index and batch

    A shallow embedding of the distributed wallet (account.go, wallet.go,
    batch.go, batchjson.go) and the properties its specification states.

    The wallet talks to collaborators that live outside the repository:
    google/uuid, the BLS key types of go-eth2-types, an Encryptor, a Store,
    the go-indexer index and encoding/json.  They are interfaces here (type
    classes and a record of closures), as they are Go interfaces or imported
    packages there; every function of the repository itself is written
    out.  Mutexes are left out: each function is modelled as one
    uninterrupted call, and the channel of Accounts as the list of what it
    delivers. *)

From Stdlib Require Import ZArith QArith Lia Ascii String DecimalString DecimalN.
From Stdlib.Strings Require Import Byte.
From stdpp Require Import base option list gmap strings.

Close Scope Q_scope.
Local Open Scope string_scope.
Local Open Scope Z_scope.

(** ** Errors and results *)

(** [error] keeps the shape of the calls that build errors in the source. *)
Inductive error : Type :=
| New (msg : string)                          (* errors.New(msg) *)
| Errorf (format : string) (arg : string)     (* fmt.Errorf(format, arg) *)
| ErrorfInt (format : string) (arg : Z)       (* fmt.Errorf(format, n) *)
| Wrap (cause : error) (msg : string)         (* errors.Wrap(cause, msg) *)
| Wrapf (cause : error) (format : string) (i : Z) (* errors.Wrapf(cause, format, i) *)
| Wrapq (cause : error) (format : string) (arg : string) (* errors.Wrapf(cause, format, s) *)
| Panic (msg : string).                       (* a run-time panic, not an error value *)

(** A Go result pair [(value, error)]. *)
Inductive result (A : Type) : Type :=
| Ok (a : A)
| Err (e : error).
Arguments Ok {A} a.
Arguments Err {A} e.

Definition is_ok {A} (r : result A) : bool :=
  match r with Ok _ => true | Err _ => false end.

#[global] Instance result_ret : MRet result := λ A a, Ok a.
#[global] Instance result_fmap : FMap result := λ A B f r,
  match r with Ok a => Ok (f a) | Err e => Err e end.
#[global] Instance result_bind : MBind result := λ A B k r,
  match r with Ok a => k a | Err e => Err e end.

(** [errors.Wrap(err, msg)] applied to the error side of a result. *)
Definition wrap {A} (r : result A) (msg : string) : result A :=
  match r with Ok a => Ok a | Err e => Err (Wrap e msg) end.

Definition wrapf {A} (r : result A) (format : string) (i : Z) : result A :=
  match r with Ok a => Ok a | Err e => Err (Wrapf e format i) end.

(** ** Bytes, hexadecimal and decimal text *)

Abbreviation bytes := (list byte).

#[global] Instance byte_eq_decision : EqDecision byte := Byte.byte_eq_dec.

(** [bytes.Equal]. *)
Definition bytes_Equal (a b : bytes) : bool := bool_decide (a = b).

(** The length of a slice, map or string as a Go [int]. *)
Definition len {A} (l : list A) : Z := Z.of_nat (length l).

(** Conversion to [uint32]: the value modulo 2^32. *)
Definition uint32 (z : Z) : Z := z mod 2 ^ 32.

Definition hextable : string := "0123456789abcdef".

Definition hex_char (n : N) : ascii :=
  match String.get (N.to_nat n) hextable with
  | Some c => c
  | None => "0"%char
  end.

Definition hex_byte (b : byte) : string :=
  String (hex_char (Byte.to_N b / 16)) (String (hex_char (Byte.to_N b mod 16)) "").

(** [fmt.Sprintf("%x", b)] for a byte slice: two lower-case digits per byte. *)
Fixpoint Sprintf_x (b : bytes) : string :=
  match b with
  | [] => ""
  | x :: r => String.append (hex_byte x) (Sprintf_x r)
  end.

(** The value of a hexadecimal digit, in either case (encoding/hex). *)
Definition fromHexChar (c : ascii) : option N :=
  let n := N_of_ascii c in
  if ((48 <=? n) && (n <=? 57))%N then Some (n - 48)%N
  else if ((97 <=? n) && (n <=? 102))%N then Some (n - 87)%N
  else if ((65 <=? n) && (n <=? 70))%N then Some (n - 55)%N
  else None.

Definition InvalidByteError (c : ascii) : error :=
  Errorf "encoding/hex: invalid byte: %#U" (String c "").
Definition ErrLength : error := New "encoding/hex: odd length hex string".

(** [hex.DecodeString]: pairs of digits; a bad digit is reported before an
    odd length. *)
Fixpoint hex_DecodeString (s : string) : result bytes :=
  match s with
  | "" => Ok []
  | String p "" =>
      match fromHexChar p with
      | None => Err (InvalidByteError p)
      | Some _ => Err ErrLength
      end
  | String p (String q r) =>
      match fromHexChar p, fromHexChar q with
      | None, _ => Err (InvalidByteError p)
      | Some _, None => Err (InvalidByteError q)
      | Some a, Some b =>
          match hex_DecodeString r with
          | Ok bs => Ok (byte_of_ascii (ascii_of_N (a * 16 + b)) :: bs)
          | Err e => Err e
          end
      end
  end.

(** [strings.TrimPrefix(s, "0x")]. *)
Definition TrimPrefix_0x (s : string) : string :=
  match s with
  | String "0" (String "x" r) => r
  | _ => s
  end.

(** [strings.HasPrefix(s, "_")]. *)
Definition HasPrefix_underscore (s : string) : bool :=
  match s with
  | String "_" _ => true
  | _ => false
  end.

(** [fmt.Sprintf("%d", k)] for an unsigned integer. *)
Definition Sprintf_d (k : N) : string := NilZero.string_of_uint (N.to_uint k).

(** [strconv.ParseUint(s, 10, 64)]: decimal digits only, at least one, and a
    value below 2^64. *)
Definition ParseUint64 (s : string) : result N :=
  match NilZero.uint_of_string s with
  | None => Err (Errorf "strconv.ParseUint: parsing %q: invalid syntax" s)
  | Some d =>
      if (N.of_uint d <? 2 ^ 64)%N then Ok (N.of_uint d)
      else Err (Errorf "strconv.ParseUint: parsing %q: value out of range" s)
  end.

(** [strconv.ParseUint(s, 10, 32)]. *)
Definition ParseUint32 (s : string) : result N :=
  match NilZero.uint_of_string s with
  | None => Err (Errorf "strconv.ParseUint: parsing %q: invalid syntax" s)
  | Some d =>
      if (N.of_uint d <? 2 ^ 32)%N then Ok (N.of_uint d)
      else Err (Errorf "strconv.ParseUint: parsing %q: value out of range" s)
  end.

(** ** Documents

    What [json.Unmarshal] produces for an [any] target, and what
    [json.Marshal] is given: nil, booleans, numbers (float64, here the
    rational they denote), strings, slices and string-keyed maps. *)
Unset Elimination Schemes.
Inductive any : Type :=
| ANil
| ABool (b : bool)
| AFloat64 (q : Q)
| AString (s : string)
| ASlice (l : list any)
| AMap (m : gmap string any).
Set Elimination Schemes.

(** Type assertions [val.(T)]. *)
Definition as_string (v : any) : option string :=
  match v with AString s => Some s | _ => None end.
Definition as_float64 (v : any) : option Q :=
  match v with AFloat64 q => Some q | _ => None end.
Definition as_slice (v : any) : option (list any) :=
  match v with ASlice l => Some l | _ => None end.
Definition as_map (v : any) : option (gmap string any) :=
  match v with AMap m => Some m | _ => None end.

(** Truncation toward zero, the integer part of a float64. *)
Definition Qtrunc (q : Q) : Z := Z.quot (Qnum q) (Z.pos (Qden q)).

(** Conversion of a float64 to an unsigned integer of [bits] bits: the
    integer part when it fits; otherwise the Go specification leaves the
    value to the implementation, which [oor] stands for. *)
Definition float64_to_uint (bits : Z) (oor : Q → Z) (q : Q) : Z :=
  let t := Qtrunc q in
  if (0 <=? t) && (t <? 2 ^ bits) then t else oor q mod 2 ^ bits.

(** ** The collaborators *)

(** github.com/google/uuid. *)
Class UUIDLib := {
  UUID : Type;
  UUID_eq_dec :: EqDecision UUID;
  UUID_countable :: Countable UUID;
  uuid_String : UUID → string;
  uuid_Parse : string → result UUID;
}.

(** The BLS keys of go-eth2-types. *)
Class BLSLib := {
  PublicKey : Type;
  PrivateKey : Type;
  Signature : Type;
  BLSPublicKeyFromBytes : bytes → result PublicKey;
  PublicKey_Marshal : PublicKey → bytes;
  BLSPrivateKeyFromBytes : bytes → result PrivateKey;
  PrivateKey_Marshal : PrivateKey → bytes;
  PrivateKey_PublicKey : PrivateKey → PublicKey;
  PrivateKey_Sign : PrivateKey → bytes → Signature;
}.

(** encoding/json between documents and their serialized form.  [data] is
    the serialized record ([[]byte] in the source); the wallet only hands it
    from the json package to the Store and back. *)
Class JSONLib := {
  data : Type;
  json_Marshal : any → result data;
  json_Unmarshal : data → result any;
}.

(** What the language leaves to the implementation: the result of
    converting a float64 that does not fit the unsigned target. *)
Class GoImpl := {
  uint32_out_of_range : Q → Z;
  uint_out_of_range : Q → Z;
}.

(** An Encryptor (e2wtypes.Encryptor) is an interface value.  The crypto
    record is a [map[string]any], which may be nil ([None]). *)
Record Encryptor := {
  enc_Name : string;
  enc_Version : Z;
  enc_String : string;
  enc_Encrypt : bytes → string → result (option (gmap string any));
  enc_Decrypt : option (gmap string any) → string → result bytes;
}.

(** go-eth2-wallet-encryptor-keystorev4. *)
Class Keystorev4Lib := {
  keystorev4_New : Encryptor;
}.

Section Account.
Context `{!UUIDLib, !BLSLib, !JSONLib, !GoImpl, !Keystorev4Lib}.

(** [uint32(f)] and [uint(f)] for a float64 [f]. *)
Definition uint32_of_float64 : Q → Z := float64_to_uint 32 uint32_out_of_range.
Definition uint_of_float64 : Q → Z := float64_to_uint 64 uint_out_of_range.

(** ** Accounts (account.go)

    The [wallet] pointer of the source is not a field here: the functions
    that use it take the wallet as an argument.  A nil [secretKey] is
    [None]. *)
Record account := {
  a_id : UUID;
  a_name : string;
  a_verificationVector : list PublicKey;
  a_signingThreshold : Z;              (* uint32 *)
  a_participants : gmap N string;      (* map[uint64]string *)
  a_crypto : option (gmap string any); (* map[string]any *)
  a_secretKey : option PrivateKey;
  a_publicKey : PublicKey;
  a_version : Z;                       (* uint *)
  a_encryptor : Encryptor;
}.

Definition set_secretKey (a : account) (k : option PrivateKey) : account :=
  {| a_id := a_id a; a_name := a_name a;
     a_verificationVector := a_verificationVector a;
     a_signingThreshold := a_signingThreshold a;
     a_participants := a_participants a; a_crypto := a_crypto a;
     a_secretKey := k; a_publicKey := a_publicKey a;
     a_version := a_version a; a_encryptor := a_encryptor a |}.

(** The [participants] map built by MarshalJSON: one insertion per entry. *)
Definition participants_strings (p : gmap N string) : gmap string any :=
  map_fold (λ k v acc, <[Sprintf_d k := AString v]> acc) ∅ p.

(** The [data] map that MarshalJSON fills in. *)
Definition account_data (a : account) : gmap string any :=
  let data : gmap string any := ∅ in
  let data := <["uuid" := AString (uuid_String (a_id a))]> data in
  let data := <["name" := AString (a_name a)]> data in
  let data := <["pubkey" := AString (Sprintf_x (PublicKey_Marshal (a_publicKey a)))]> data in
  let verificationKeys :=
    (λ k, AString (Sprintf_x (PublicKey_Marshal k))) <$> a_verificationVector a in
  let data := <["verificationvector" := ASlice verificationKeys]> data in
  let data := <["signing_threshold" := AFloat64 (inject_Z (a_signingThreshold a))]> data in
  let data := <["participants" := AMap (participants_strings (a_participants a))]> data in
  let data := <["crypto" := match a_crypto a with Some c => AMap c | None => ANil end]> data in
  let data := <["encryptor" := AString (enc_Name (a_encryptor a))]> data in
  let data := <["version" := AFloat64 (inject_Z (a_version a))]> data in
  data.

Definition account_MarshalJSON (a : account) : result data :=
  wrap (json_Marshal (AMap (account_data a))) "failed to marshal account".

(** The loop over [verificationVectorData], from index [i]. *)
Fixpoint unmarshal_verificationVector (i : Z) (l : list any) : result (list PublicKey) :=
  match l with
  | [] => Ok []
  | x :: r =>
      match as_string x with
      | None => Err (New "account verification vector does not contain strings")
      | Some key =>
          bytes ← wrapf (hex_DecodeString (TrimPrefix_0x key))
                    "failed to decode verification vector element %d" i;
          tmp ← wrapf (BLSPublicKeyFromBytes bytes)
                  "failed to obtain BLS public key for verification fector element %d" i;
          rest ← unmarshal_verificationVector (i + 1) r;
          Ok (tmp :: rest)
      end
  end.

(** The loop over [participantData]; Go ranges over a map in no fixed
    order, and so does [map_fold]. *)
Definition unmarshal_participants (participantData : gmap string any)
  : result (gmap N string) :=
  map_fold (λ k v acc,
    participants ← acc;
    id ← match ParseUint64 k with
         | Ok id => Ok id
         | Err _ => Err (New "account participant ID invalid")
         end;
    match as_string v with
    | None => Err (New "account participant value invalid")
    | Some val => Ok (<[id := val]> participants)
    end) (Ok ∅) participantData.

(** UnmarshalJSON on the map [v] that [json.Unmarshal] has produced.  The
    receiver is always a new account (from [newAccount], or allocated by the
    json package), so the fields this function does not assign are the nil
    [secretKey] and the wallet; callers drop the receiver on an error. *)
Definition account_UnmarshalJSON_map (v : gmap string any) : result account :=
  id ← match v !! "uuid" with
       | Some val =>
           match as_string val with
           | None => Err (New "account ID invalid")
           | Some idStr => wrap (uuid_Parse idStr) "failed to parse UUID"
           end
       | None => Err (New "account ID missing")
       end;
  name ← match v !! "name" with
         | Some val =>
             match as_string val with
             | None => Err (New "account name invalid")
             | Some name => Ok name
             end
         | None => Err (New "account name missing")
         end;
  publicKey ← match v !! "pubkey" with
              | Some val =>
                  match as_string val with
                  | None => Err (New "account pubkey invalid")
                  | Some publicKey =>
                      bytes ← wrap (hex_DecodeString (TrimPrefix_0x publicKey))
                                "failed to decode public key";
                      wrap (BLSPublicKeyFromBytes bytes) "failed to obtain BLS public key"
                  end
              | None => Err (New "account pubkey missing")
              end;
  verificationVector ← match v !! "verificationvector" with
                       | Some val =>
                           match as_slice val with
                           | None => Err (New "account verificationvector invalid")
                           | Some verificationVectorData =>
                               unmarshal_verificationVector 0 verificationVectorData
                           end
                       | None => Err (New "account verificationvector missing")
                       end;
  participants ← match v !! "participants" with
                 | Some val =>
                     match as_map val with
                     | None => Err (New "account participants invalid")
                     | Some participantData => unmarshal_participants participantData
                     end
                 | None => Err (New "participants missing")
                 end;
  signingThreshold ← match v !! "signing_threshold" with
                     | Some val =>
                         match as_float64 val with
                         | None => Err (New "account signing threshold invalid")
                         | Some signingThreshold =>
                             let t := uint32_of_float64 signingThreshold in
                             if t <=? uint32 (Z.of_nat (size participants) / 2)
                             then Err (New "account signing threshold too low")
                             else Ok t
                         end
                     | None => Err (New "account signing threshold missing")
                     end;
  crypto ← match v !! "crypto" with
           | Some val =>
               match as_map val with
               | None => Err (New "account crypto invalid")
               | Some crypto => Ok crypto
               end
           | None => Err (New "account crypto missing")
           end;
  version ← match v !! "version" with
            | Some val =>
                match as_float64 val with
                | None => Err (New "account version invalid")
                | Some version => Ok (uint_of_float64 version)
                end
            | None => Err (New "account version missing")
            end;
  (* Only support keystorev4 at current... *)
  if version =? 4 then
    Ok {| a_id := id; a_name := name; a_verificationVector := verificationVector;
          a_signingThreshold := signingThreshold; a_participants := participants;
          a_crypto := Some crypto; a_secretKey := None; a_publicKey := publicKey;
          a_version := version; a_encryptor := keystorev4_New |}
  else Err (New "unsupported keystore version").

(** [json.Unmarshal(data, &v)] for [v] a [map[string]any]: a JSON object
    gives its map, [null] leaves the nil map, anything else is an error. *)
Definition json_Unmarshal_map (d : data) : result (gmap string any) :=
  v ← json_Unmarshal d;
  match v with
  | AMap m => Ok m
  | ANil => Ok ∅
  | _ => Err (New "json: cannot unmarshal into Go value of type map[string]interface {}")
  end.

Definition account_UnmarshalJSON (d : data) : result account :=
  v ← wrap (json_Unmarshal_map d) "failed to unmarshal account";
  account_UnmarshalJSON_map v.

(** [json.Unmarshal(data, v)] for a [v] that has an UnmarshalJSON method:
    the text is checked to be JSON first and then handed to the method,
    whose error comes back unchanged. *)
Definition json_Unmarshal_with {A} (UnmarshalJSON : data → result A) (d : data)
  : result A :=
  match json_Unmarshal d with
  | Err e => Err e
  | Ok _ => UnmarshalJSON d
  end.

(** [json.Marshal(v)] for a [v] that has a MarshalJSON method: the error of
    the method comes back inside a [*json.MarshalerError]. *)
Definition json_Marshal_with (r : result data) : result data :=
  match r with
  | Ok d => Ok d
  | Err e => Err (Wrap e "json: error calling MarshalJSON")
  end.

(** PrivateKey provides the private key for the account. *)
Definition account_PrivateKey (a : account) : result PrivateKey :=
  match a_secretKey a with
  | None => Err (New "cannot provide private key when account is locked")
  | Some k => Ok k
  end.

(** Lock locks the account. *)
Definition account_Lock (a : account) : result unit * account :=
  (Ok (), set_secretKey a None).

(** Unlock unlocks the account: the result and the account afterwards. *)
Definition account_Unlock (a : account) (passphrase : string) : result unit * account :=
  match a_secretKey a with
  | Some _ => (Ok (), a)
  | None =>
      match enc_Decrypt (a_encryptor a) (a_crypto a) passphrase with
      | Err _ => (Err (New "incorrect passphrase"), a)
      | Ok secretBytes =>
          match BLSPrivateKeyFromBytes secretBytes with
          | Err err => (Err (Wrap err "failed to obtain BLS private key"), a)
          | Ok secretKey =>
              let publicKey := PrivateKey_PublicKey secretKey in
              if negb (bytes_Equal (PublicKey_Marshal publicKey) (PublicKey_Marshal (a_publicKey a)))
              then (Err (New "secret key does not correspond to public key"), a)
              else (Ok (), set_secretKey a (Some secretKey))
          end
      end
  end.

Definition account_IsUnlocked (a : account) : bool :=
  match a_secretKey a with Some _ => true | None => false end.

(** Sign signs data. *)
Definition account_Sign (a : account) (d : bytes) : result Signature :=
  match a_secretKey a with
  | None => Err (New "cannot sign when account is locked")
  | Some k => Ok (PrivateKey_Sign k d)
  end.

End Account.

(** ** The index (github.com/wealdtech/go-indexer) *)
Section Indexer.
Context `{!UUIDLib, !JSONLib}.

(** Modelled from the spec: the indexer package is a dependency whose source
    is not under src/.  The index is the pair of maps name→ID and ID→name of
    §3; [Add] records a pair in both, [Remove] drops it from both, and the
    persisted form is a single opaque record, written and read by the
    package. *)
Record Index := {
  ids : gmap string UUID;
  names : gmap UUID string;
}.

Definition indexer_New : Index := {| ids := ∅; names := ∅ |}.

Definition Index_Add (id : UUID) (name : string) (i : Index) : Index :=
  {| ids := <[name := id]> (ids i); names := <[id := name]> (names i) |}.

Definition Index_Remove (id : UUID) (name : string) (i : Index) : Index :=
  {| ids := delete name (ids i); names := delete id (names i) |}.

Definition Index_ID (i : Index) (name : string) : option UUID := ids i !! name.

Definition Index_Name (i : Index) (id : UUID) : option string := names i !! id.

Class IndexerLib := {
  Index_Serialize : Index → result data;
  indexer_Deserialize : data → result Index;
}.

(** ** The Store (e2wtypes.Store)

    A backend has a state of its own; every call returns the state it
    leaves behind, and any call may fail.  [RetrieveAccounts] is the channel
    of records, as the list of what it delivers.  The two batch interfaces
    are optional: [None] when the type assertion of the source fails. *)
Class StoreLib := {
  store : Type;
  store_Name : string;
  RetrieveWallet : store → string → result data * store;
  StoreWallet : store → UUID → string → data → result unit * store;
  RetrieveAccount : store → UUID → UUID → result data * store;
  StoreAccount : store → UUID → UUID → data → result unit * store;
  RetrieveAccounts : store → UUID → list data * store;
  RetrieveAccountsIndex : store → UUID → result data * store;
  StoreAccountsIndex : store → UUID → data → result unit * store;
  BatchRetriever : option (store → UUID → result data * store);
  BatchStorer : option (store → UUID → string → data → result unit * store);
}.

End Indexer.

(** ** Batches (batch.go, batchjson.go) *)
Section Batch.
Context `{!UUIDLib, !BLSLib, !JSONLib, !GoImpl, !Keystorev4Lib}.

Definition walletType : string := "distributed".
Definition version : Z := 1.

Record batchEntry := {
  be_id : UUID;
  be_name : string;
  be_verificationVector : list bytes;
  be_signingThreshold : Z;                 (* uint32 *)
  be_participants : gmap string string;
  be_pubkey : bytes;
}.

(** [b_encryptor] is nil ([None]) in the marker [&batch{}]. *)
Record batch := {
  b_entries : list batchEntry;
  b_crypto : option (gmap string any);
  b_encryptor : option Encryptor;
}.

Definition empty_batch : batch :=
  {| b_entries := []; b_crypto := None; b_encryptor := None |}.

Record batchEntryJSON := {
  bej_UUID : UUID;
  bej_Name : string;
  bej_VerificationVector : list string;
  bej_SigningThreshold : string;
  bej_Participants : gmap string string;
  bej_Pubkey : string;
}.

(** The [Entries] of a [batchJSON] are [*batchEntry] values, which the json
    package reads and writes through their own MarshalJSON and UnmarshalJSON:
    on the wire side each entry is its serialized form.  (A [null] entry,
    which the source would dereference, is not a record of this model.) *)
Record batchJSON := {
  bj_Entries : list data;
  bj_Crypto : option (gmap string any);
  bj_Encryptor : string;
  bj_Version : Z;
}.

(** encoding/json on the two struct types of batchjson.go. *)
Class JSONStructLib := {
  json_Marshal_batchEntryJSON : batchEntryJSON → result data;
  json_Unmarshal_batchEntryJSON : data → result batchEntryJSON;
  json_Marshal_batchJSON : batchJSON → result data;
  json_Unmarshal_batchJSON : data → result batchJSON;
}.
Context `{!JSONStructLib}.


Fixpoint decode_verificationVector (i : Z) (l : list string) : result (list bytes) :=
  match l with
  | [] => Ok []
  | x :: r =>
      b ← wrapf (hex_DecodeString (TrimPrefix_0x x)) "invalid verification vector %d" i;
      rest ← decode_verificationVector (i + 1) r;
      Ok (b :: rest)
  end.

Definition batchEntry_UnmarshalJSON (input : data) : result batchEntry :=
  d ← wrap (json_Unmarshal_batchEntryJSON input) "invalid JSON";
  verificationVector ← decode_verificationVector 0 (bej_VerificationVector d);
  signingThreshold ← wrap (ParseUint32 (bej_SigningThreshold d))
                       "failed to parse signing threshold";
  pubkey ← wrap (hex_DecodeString (TrimPrefix_0x (bej_Pubkey d))) "invalid pubkey";
  Ok {| be_id := bej_UUID d;
        be_name := bej_Name d;
        be_verificationVector := verificationVector;
        be_signingThreshold := Z.of_N signingThreshold;
        be_participants := bej_Participants d;
        be_pubkey := pubkey |}.

(** [mapM] over the entries, in order, stopping at the first error. *)
Fixpoint result_mapM {A B} (f : A → result B) (l : list A) : result (list B) :=
  match l with
  | [] => Ok []
  | x :: r => y ← f x; ys ← result_mapM f r; Ok (y :: ys)
  end.


Definition batch_UnmarshalJSON (input : data) : result batch :=
  d ← wrap (json_Unmarshal_batchJSON input) "invalid JSON";
  entries ← wrap (result_mapM batchEntry_UnmarshalJSON (bj_Entries d)) "invalid JSON";
  if negb (bj_Version d =? version)
  then Err (ErrorfInt "unsupported version %d" (bj_Version d))
  else
    if String.eqb (bj_Encryptor d) "keystorev4"
    then Ok {| b_entries := entries; b_crypto := bj_Crypto d;
               b_encryptor := Some keystorev4_New |}
    else Err (Errorf "unsupported encryptor %s" (bj_Encryptor d)).

End Batch.

(** ** The wallet (wallet.go) *)
Section Wallet.
Context `{!UUIDLib, !BLSLib, !JSONLib, !GoImpl, !Keystorev4Lib, !JSONStructLib,
          !IndexerLib, !StoreLib}.

(** The wallet, without its two mutexes and without the [store] pointer:
    the state of the Store is passed along with the wallet. *)
Record wallet := {
  w_id : UUID;
  w_name : string;
  w_version : Z;
  w_encryptor : Encryptor;
  w_unlocked : bool;
  w_index : Index;
  w_batch : option batch;
  w_accounts : gmap UUID account;
  w_batchDecrypted : bool;
}.

Definition set_unlocked (w : wallet) (u : bool) : wallet :=
  {| w_id := w_id w; w_name := w_name w; w_version := w_version w;
     w_encryptor := w_encryptor w; w_unlocked := u; w_index := w_index w;
     w_batch := w_batch w; w_accounts := w_accounts w;
     w_batchDecrypted := w_batchDecrypted w |}.

Definition set_index (w : wallet) (i : Index) : wallet :=
  {| w_id := w_id w; w_name := w_name w; w_version := w_version w;
     w_encryptor := w_encryptor w; w_unlocked := w_unlocked w; w_index := i;
     w_batch := w_batch w; w_accounts := w_accounts w;
     w_batchDecrypted := w_batchDecrypted w |}.

Definition set_batch (w : wallet) (b : option batch) : wallet :=
  {| w_id := w_id w; w_name := w_name w; w_version := w_version w;
     w_encryptor := w_encryptor w; w_unlocked := w_unlocked w; w_index := w_index w;
     w_batch := b; w_accounts := w_accounts w;
     w_batchDecrypted := w_batchDecrypted w |}.

Definition set_accounts (w : wallet) (m : gmap UUID account) : wallet :=
  {| w_id := w_id w; w_name := w_name w; w_version := w_version w;
     w_encryptor := w_encryptor w; w_unlocked := w_unlocked w; w_index := w_index w;
     w_batch := w_batch w; w_accounts := m;
     w_batchDecrypted := w_batchDecrypted w |}.


(** newWallet, given the identifier [uuid.NewRandom] has drawn.  The
    [encryptor] is the one the caller assigns right after. *)
Definition newWallet (id : UUID) (encryptor : Encryptor) : wallet :=
  {| w_id := id; w_name := ""; w_version := version; w_encryptor := encryptor;
     w_unlocked := false; w_index := indexer_New; w_batch := None;
     w_accounts := ∅; w_batchDecrypted := false |}.

Definition wallet_data (w : wallet) : gmap string any :=
  let data : gmap string any := ∅ in
  let data := <["uuid" := AString (uuid_String (w_id w))]> data in
  let data := <["name" := AString (w_name w)]> data in
  let data := <["version" := AFloat64 (inject_Z (w_version w))]> data in
  let data := <["type" := AString walletType]> data in
  data.

Definition wallet_MarshalJSON (w : wallet) : result data :=
  wrap (json_Marshal (AMap (wallet_data w))) "failed to marshal wallet".


(** Lock, Unlock and IsUnlocked of the wallet. *)
Definition wallet_Lock (w : wallet) : result unit * wallet := (Ok (), set_unlocked w false).
Definition wallet_Unlock (w : wallet) (passphrase : string) : result unit * wallet :=
  (Ok (), set_unlocked w true).
Definition wallet_IsUnlocked (w : wallet) : result bool := Ok (w_unlocked w).

(** storeAccountsIndex stores the accounts index for a wallet. *)
Definition wallet_storeAccountsIndex (w : wallet) (s : store) : result unit * store :=
  match Index_Serialize (w_index w) with
  | Err e => (Err (Wrap e "failed to serialize index"), s)
  | Ok serializedIndex =>
      let '(r, s) := StoreAccountsIndex s (w_id w) serializedIndex in
      (wrap r "failed to store accounts index", s)
  end.

(** storeWallet stores the wallet in the store. *)
Definition wallet_storeWallet (w : wallet) (s : store) : result unit * store :=
  match wrap (json_Marshal_with (wallet_MarshalJSON w)) "failed to create store format" with
  | Err e => (Err e, s)
  | Ok d =>
      let '(r, s) := wallet_storeAccountsIndex w s in
      match r with
      | Err e => (Err (Wrap e "failed to store account index"), s)
      | Ok _ =>
          let '(r, s) := StoreWallet s (w_id w) (w_name w) d in
          (wrap r "failed to store wallet", s)
      end
  end.

(** CreateWallet; [id] is the identifier drawn by newWallet.  The wallet is
    returned together with the error of storeWallet, as in the source. *)
Definition CreateWallet (id : UUID) (name : string) (s : store) (encryptor : Encryptor)
  : result unit * option wallet * store :=
  let '(r, s) := RetrieveWallet s name in
  match r with
  | Ok _ => (Err (Errorf "wallet %q already exists" name), None, s)
  | Err _ =>
      let w := newWallet id encryptor in
      let w := {| w_id := w_id w; w_name := name; w_version := version;
                  w_encryptor := encryptor; w_unlocked := w_unlocked w;
                  w_index := w_index w; w_batch := w_batch w;
                  w_accounts := w_accounts w;
                  w_batchDecrypted := w_batchDecrypted w |} in
      let '(r, s) := wallet_storeWallet w s in
      (r, Some w, s)
  end.

(** deserializeAccount deserializes account data to an account.  The
    identifier newAccount draws and the encryptor of the wallet are both
    overwritten by UnmarshalJSON whenever it succeeds. *)
Definition deserializeAccount (w : wallet) (d : data) : result account :=
  wrap (json_Unmarshal_with account_UnmarshalJSON d) "failed to unmarshal account".

(** The participants of a batch entry, keyed by number again. *)
Definition entry_participants (p : gmap string string) : result (gmap N string) :=
  map_fold (λ k v acc,
    participants ← acc;
    id ← wrap (ParseUint64 k) "invalid participant ID";
    Ok (<[id := v]> participants)) (Ok ∅) p.

Fixpoint entry_verificationVector (j : Z) (l : list bytes) : result (list PublicKey) :=
  match l with
  | [] => Ok []
  | v :: r =>
      k ← wrapf (BLSPublicKeyFromBytes v) "invalid verification vector %d" j;
      rest ← entry_verificationVector (j + 1) r;
      Ok (k :: rest)
  end.

(** The account retrieveAccountsBatch creates for one entry.  Its crypto
    is not populated, "as the secret is in the batch". *)
Definition entry_account (w : wallet) (e : batchEntry) : result account :=
  publicKey ← wrap (BLSPublicKeyFromBytes (be_pubkey e)) "invalid public key";
  verificationVector ← entry_verificationVector 0 (be_verificationVector e);
  participants ← entry_participants (be_participants e);
  Ok {| a_id := be_id e; a_name := be_name e;
        a_verificationVector := verificationVector;
        a_signingThreshold := be_signingThreshold e;
        a_participants := participants;
        a_crypto := None; a_secretKey := None;
        a_publicKey := publicKey;
        a_version := version;
        a_encryptor := w_encryptor w |}.

(** "Create individual accounts from the batch": each account is put in
    [w.accounts] as soon as it is built, so an error leaves the earlier
    ones in place. *)
Fixpoint materialize (w : wallet) (entries : list batchEntry) : result unit * wallet :=
  match entries with
  | [] => (Ok (), w)
  | e :: r =>
      match entry_account w e with
      | Err err => (Err err, w)
      | Ok account =>
          materialize (set_accounts w (<[a_id account := account]> (w_accounts w))) r
      end
  end.

(** retrieveAccountsBatch retrieves the batched accounts for a wallet. *)
Definition wallet_retrieveAccountsBatch (w : wallet) (s : store)
  : result unit * wallet * store :=
  match w_batch w with
  | Some _ => (Ok (), w, s)
  | None =>
      (* Place a marker on the batch so that if we error out we don't
         keep coming back and trying again. *)
      let w := set_batch w (Some empty_batch) in
      match BatchRetriever with
      | None => (Err (New "not a batch retriever"), w, s)
      | Some RetrieveBatch =>
          let '(r, s) := RetrieveBatch s (w_id w) in
          match r with
          | Err e => (Err (Wrap e "failed to retrieve batch"), w, s)
          | Ok serializedBatch =>
              match json_Unmarshal_with batch_UnmarshalJSON serializedBatch with
              | Err e => (Err (Wrap e "failed to unmarshal batch"), w, s)
              | Ok res =>
                  let w := set_batch w (Some res) in
                  let '(r, w) := materialize w (b_entries res) in
                  (r, w, s)
              end
          end
      end
  end.

Definition wallet_retrieveBatchIfRequired (w : wallet) (s : store)
  : result unit * wallet * store :=
  match w_batch w with
  | None =>
      match BatchRetriever with
      | Some _ => wallet_retrieveAccountsBatch w s
      | None => (Ok (), w, s)
      end
  | Some _ => (Ok (), w, s)
  end.

(** [w.batch != nil && len(w.batch.entries) > 0]. *)
Definition batch_present (w : wallet) : bool :=
  match w_batch w with
  | Some b => 0 <? len (b_entries b)
  | None => false
  end.

(** Accounts provides all accounts in the wallet: what the channel
    delivers, in order, and the wallet and Store afterwards. *)
Definition wallet_Accounts (w : wallet) (s : store) : list account * wallet * store :=
  let '(_, w, s) := wallet_retrieveBatchIfRequired w s in
  if batch_present w then
    (* Batch present, use pre-loaded accounts. *)
    (snd <$> map_to_list (w_accounts w), w, s)
  else
    (* No batch; fall back to individual accounts on the store. *)
    let '(records, s) := RetrieveAccounts s (w_id w) in
    (omap (λ d, match deserializeAccount w d with
                | Ok account => Some account
                | Err _ => None
                end) records, w, s).

(** AccountByID provides a single account from the wallet given its ID. *)
Definition wallet_AccountByID (w : wallet) (s : store) (id : UUID)
  : result account * wallet * store :=
  let '(_, w, s) := wallet_retrieveBatchIfRequired w s in
  match (if batch_present w then w_accounts w !! id else None) with
  | Some account => (Ok account, w, s)
  | None =>
      (* No batch or account not in batch; fall back to individual account
         on the store. *)
      let '(r, s) := RetrieveAccount s (w_id w) id in
      match r with
      | Err e => (Err (Wrap e "failed to retrieve account"), w, s)
      | Ok d =>
          match deserializeAccount w d with
          | Err e => (Err e, w, s)
          | Ok res => (Ok res, set_accounts w (<[id := res]> (w_accounts w)), s)
          end
      end
  end.

(** AccountByName provides a single account from the wallet given its name. *)
Definition wallet_AccountByName (w : wallet) (s : store) (name : string)
  : result account * wallet * store :=
  match Index_ID (w_index w) name with
  | None => (Err (Errorf "no account with name %q" name), w, s)
  | Some id => wallet_AccountByID w s id
  end.

(** storeAccount stores the account. *)
Definition account_storeAccount (a : account) (w : wallet) (s : store)
  : result unit * wallet * store :=
  match wrap (json_Marshal_with (account_MarshalJSON a)) "failed to create store format" with
  | Err e => (Err e, w, s)
  | Ok d =>
      let '(r, s) := wallet_storeAccountsIndex w s in
      match r with
      | Err e => (Err (Wrap e "failed to store account index"), w, s)
      | Ok _ =>
          let '(r, s) := StoreAccount s (w_id w) (a_id a) d in
          match r with
          | Err e => (Err (Wrap e "failed to store account"), w, s)
          | Ok _ =>
              (* Check to ensure the account can be retrieved. *)
              let '(r, w, s) := wallet_AccountByName w s (a_name a) in
              match r with
              | Err e =>
                  (Err (Wrap e "failed to confirm account when retrieving by name"), w, s)
              | Ok _ =>
                  let '(r, w, s) := wallet_AccountByID w s (a_id a) in
                  match r with
                  | Err e =>
                      (Err (Wrap e "failed to confirm account when retrieveing by ID"), w, s)
                  | Ok _ => (Ok (), w, s)
                  end
              end
          end
      end
  end.

(** The loop of ImportDistributedAccount over the verification vector. *)
Fixpoint import_verificationVector (i : Z) (l : list bytes) : result (list PublicKey) :=
  match l with
  | [] => Ok []
  | v :: r =>
      k ← wrapf (BLSPublicKeyFromBytes v)
            "failed to obtain BLS public key for verification vector %d" i;
      rest ← import_verificationVector (i + 1) r;
      Ok (k :: rest)
  end.

(** ImportDistributedAccount creates a new distributed account in the wallet
    from provided data.  [newid] is what [uuid.NewRandom] returns inside
    newAccount.  [signingThreshold] is a uint32 and the keys of
    [participants] are uint64. *)
Definition wallet_ImportDistributedAccount (w : wallet) (s : store) (newid : result UUID)
    (name : string) (privatekey : bytes) (signingThreshold : Z)
    (verificationVector : list bytes) (participants : gmap N string)
    (passphrase : string) : result account * wallet * store :=
  if String.eqb name "" then (Err (New "account name missing"), w, s)
  else if HasPrefix_underscore name then (Err (Errorf "invalid account name %q" name), w, s)
  else if len privatekey =? 0 then (Err (New "private key missing"), w, s)
  else if len verificationVector =? 0 then (Err (New "verification vector missing"), w, s)
  else if Z.of_nat (size participants) =? 0 then (Err (New "participants missing"), w, s)
  else if signingThreshold <=? uint32 (Z.of_nat (size participants) / 2)
  then (Err (New "invalid signing threshold:participant ratio"), w, s)
  else if negb (uint32 (len verificationVector) =? signingThreshold)
  then (Err (New "verification vector invalid"), w, s)
  else
    match wallet_IsUnlocked w with
    | Err e => (Err (Wrap e "failed to obtain wallet lock status"), w, s)
    | Ok unlocked =>
        if negb unlocked then (Err (New "wallet must be unlocked to create accounts"), w, s)
        else
          (* Ensure that we don't already have an account with this name. *)
          let '(r, w, s) := wallet_AccountByName w s name in
          match r with
          | Ok _ => (Err (Errorf "account with name %q already exists" name), w, s)
          | Err _ =>
              match newid with
              | Err e => (Err (Wrap e "failed to generate ID"), w, s)
              | Ok id =>
                  match BLSPrivateKeyFromBytes privatekey with
                  | Err e => (Err (Wrap e "failed to obtain BLS private key"), w, s)
                  | Ok privateKey =>
                      match import_verificationVector 0 verificationVector with
                      | Err e => (Err e, w, s)
                      | Ok vv =>
                          match enc_Encrypt (w_encryptor w)
                                  (PrivateKey_Marshal privateKey) passphrase with
                          | Err e => (Err (Wrap e "failed to encrypt private key"), w, s)
                          | Ok crypto =>
                              let a :=
                                {| a_id := id; a_name := name;
                                   a_verificationVector := vv;
                                   a_signingThreshold := signingThreshold;
                                   a_participants := participants;
                                   a_crypto := crypto; a_secretKey := None;
                                   a_publicKey := PrivateKey_PublicKey privateKey;
                                   a_version := enc_Version (w_encryptor w);
                                   a_encryptor := w_encryptor w |} in
                              (* Have to update the index first so that
                                 storeAccount() stores the index with the new
                                 account present, but be ready to revert if it
                                 fails. *)
                              let w := set_index w (Index_Add id name (w_index w)) in
                              let '(r, w, s) := account_storeAccount a w s in
                              match r with
                              | Err e =>
                                  (Err e, set_index w (Index_Remove id name (w_index w)), s)
                              | Ok _ =>
                                  (Ok a, set_accounts w (<[id := a]> (w_accounts w)), s)
                              end
                          end
                      end
                  end
              end
          end
    end.


(** The wallet of newWallet once UnmarshalJSON has read its identifier, name
    and version and the encryptor has been assigned. *)
Definition unmarshalled_wallet (id : UUID) (name : string) (ver : Z)
    (encryptor : Encryptor) : wallet :=
  {| w_id := id; w_name := name; w_version := ver; w_encryptor := encryptor;
     w_unlocked := false; w_index := indexer_New; w_batch := None;
     w_accounts := ∅; w_batchDecrypted := false |}.



(** ** Building and decrypting a batch (batch.go) *)








End Wallet.

(** ** Vocabulary of the specification *)
Section Vocabulary.
Context `{!UUIDLib, !BLSLib, !JSONLib, !GoImpl, !Keystorev4Lib}.

(** encoding/json reads back the document [v] it has written. *)
Definition json_faithful (v : any) : Prop :=
  ∃ d, json_Marshal v = Ok d ∧ json_Unmarshal d = Ok v.

(** A well-formed account (§3): its identifier and keys are read back from
    their own text by the uuid and BLS packages, the threshold is a uint32
    that exceeds half the number of participants, the participant numbers
    are uint64, and it carries a crypto record of its own. *)
Record account_wf (a : account) : Prop := {
  wf_id : uuid_Parse (uuid_String (a_id a)) = Ok (a_id a);
  wf_publicKey :
    BLSPublicKeyFromBytes (PublicKey_Marshal (a_publicKey a)) = Ok (a_publicKey a);
  wf_verificationVector :
    Forall (λ k, BLSPublicKeyFromBytes (PublicKey_Marshal k) = Ok k)
           (a_verificationVector a);
  wf_threshold : 0 ≤ a_signingThreshold a < 2 ^ 32;
  wf_majority : Z.of_nat (size (a_participants a)) / 2 < a_signingThreshold a;
  wf_participants : ∀ k, is_Some (a_participants a !! k) → (k < 2 ^ 64)%N;
  wf_crypto : is_Some (a_crypto a);
}.

End Vocabulary.


Section WalletVocabulary.
Context `{!UUIDLib, !BLSLib, !JSONLib, !GoImpl, !Keystorev4Lib, !JSONStructLib,
          !IndexerLib, !StoreLib}.

(** The nine checks of importAccount (§4.1), in the order the specification
    numbers them and in its words; each comes with the error of its
    failure, and is [true] when it passes.  The ninth asks the wallet
    whether an account of that name can be obtained. *)
Definition import_checks (w : wallet) (s : store) (name : string) (privatekey : bytes)
    (signingThreshold : Z) (verificationVector : list bytes)
    (participants : gmap N string) : list (bool * error) :=
  [ (negb (bool_decide (name = "")), New "account name missing");
    (negb (bool_decide (String.get 0 name = Some "_"%char)), Errorf "invalid account name %q" name);
    (negb (bool_decide (privatekey = [])), New "private key missing");
    (negb (bool_decide (verificationVector = [])), New "verification vector missing");
    (negb (bool_decide (participants = ∅)), New "participants missing");
    (bool_decide (Z.of_nat (size participants) / 2 < signingThreshold),
      New "invalid signing threshold:participant ratio");
    (bool_decide (len verificationVector = signingThreshold),
      New "verification vector invalid");
    (w_unlocked w, New "wallet must be unlocked to create accounts");
    (negb (is_ok (wallet_AccountByName w s name).1.1),
      Errorf "account with name %q already exists" name) ].

(** The error of the earliest check that is violated, if any. *)
Definition earliest_violation (checks : list (bool * error)) : option error :=
  snd <$> List.find (λ c, negb c.1) checks.




End WalletVocabulary.

(** ** A reference implementation of the collaborators

    Small, executable stand-ins for the uuid, BLS, json, encryptor and Store
    packages, on which the functions above can be run. *)
Module Sim.

(** Identifiers are numbers, written in decimal. *)
#[export] Instance uuid : UUIDLib := {|
  UUID := N;
  uuid_String := Sprintf_d;
  uuid_Parse := λ s,
    match NilZero.uint_of_string s with
    | Some d => Ok (N.of_uint d)
    | None => Err (Errorf "invalid UUID format %q" s)
    end;
|}.

Definition all_zero (b : bytes) : bool :=
  forallb (λ x, bool_decide (x = x00)) b.

(** A public key is 48 bytes, not all zero; a private key is 32 bytes and
    its public key is the key followed by sixteen bytes 01. *)
#[export] Instance bls : BLSLib := {|
  PublicKey := bytes;
  PrivateKey := bytes;
  Signature := bytes;
  BLSPublicKeyFromBytes := λ b,
    if (length b =? 48)%nat && negb (all_zero b) then Ok b
    else Err (New "failed to deserialize public key");
  PublicKey_Marshal := λ k, k;
  BLSPrivateKeyFromBytes := λ b,
    if (length b =? 32)%nat then Ok b
    else Err (New "failed to deserialize secret key");
  PrivateKey_Marshal := λ k, k;
  PrivateKey_PublicKey := λ k, (k ++ replicate 16 x01)%list;
  PrivateKey_Sign := λ k d, (k ++ d)%list;
|}.

(** The serialized form of a document is the document. *)
#[export] Instance json : JSONLib := {|
  data := any;
  json_Marshal := λ v, Ok v;
  json_Unmarshal := λ d, Ok d;
|}.

#[export] Instance goimpl : GoImpl := {|
  uint32_out_of_range := λ _, 0;
  uint_out_of_range := λ _, 2 ^ 63;
|}.

(** The encryptor keeps the secret in hexadecimal next to the passphrase,
    and refuses a missing record as keystorev4 does. *)
Definition encryptor : Encryptor := {|
  enc_Name := "keystore";
  enc_Version := 4;
  enc_String := "keystorev4";
  enc_Encrypt := λ secret passphrase,
    Ok (Some (<["secret" := AString (Sprintf_x secret)]>
             (<["passphrase" := AString passphrase]> ∅)));
  enc_Decrypt := λ c passphrase,
    match c with
    | None => Err (New "no data supplied")
    | Some m =>
        match m !! "secret", m !! "passphrase" with
        | Some (AString h), Some (AString p) =>
            if String.eqb p passphrase then hex_DecodeString h
            else Err (New "invalid checksum")
        | _, _ => Err (New "invalid format")
        end
    end;
|}.

#[export] Instance keystorev4 : Keystorev4Lib := {| keystorev4_New := encryptor |}.

Definition strings_of_slice (l : list any) : option (list string) :=
  mapM as_string l.

Definition strings_of_map (m : gmap string any) : option (gmap string string) :=
  if forallb (λ kv, bool_decide (is_Some (as_string kv.2))) (map_to_list m)
  then Some (omap as_string m) else None.

Definition field_string (m : gmap string any) (k : string) : result string :=
  match m !! k with
  | None | Some ANil => Ok ""
  | Some (AString s) => Ok s
  | Some _ => Err (Errorf "json: cannot unmarshal into field %s" k)
  end.

#[export] Instance jsonstruct : JSONStructLib := {|
  json_Marshal_batchEntryJSON := λ e,
    Ok (AMap (<["uuid" := AString (uuid_String (bej_UUID e))]>
             (<["name" := AString (bej_Name e)]>
             (<["verification_vector" := ASlice (AString <$> bej_VerificationVector e)]>
             (<["signing_threshold" := AString (bej_SigningThreshold e)]>
             (<["participants" := AMap (AString <$> bej_Participants e)]>
             (<["pubkey" := AString (bej_Pubkey e)]> ∅)))))));
  json_Unmarshal_batchEntryJSON := λ d,
    match d with
    | AMap m =>
        id ← (s ← field_string m "uuid"; uuid_Parse s);
        name ← field_string m "name";
        vv ← match m !! "verification_vector" with
             | None | Some ANil => Ok []
             | Some (ASlice l) =>
                 match strings_of_slice l with
                 | Some l => Ok l
                 | None => Err (New "json: cannot unmarshal into field verification_vector")
                 end
             | Some _ => Err (New "json: cannot unmarshal into field verification_vector")
             end;
        st ← field_string m "signing_threshold";
        p ← match m !! "participants" with
            | None | Some ANil => Ok ∅
            | Some (AMap p) =>
                match strings_of_map p with
                | Some p => Ok p
                | None => Err (New "json: cannot unmarshal into field participants")
                end
            | Some _ => Err (New "json: cannot unmarshal into field participants")
            end;
        pk ← field_string m "pubkey";
        Ok {| bej_UUID := id; bej_Name := name; bej_VerificationVector := vv;
              bej_SigningThreshold := st; bej_Participants := p; bej_Pubkey := pk |}
    | _ => Err (New "json: cannot unmarshal into Go value of type batchEntryJSON")
    end;
  json_Marshal_batchJSON := λ b,
    Ok (AMap (<["entries" := ASlice (bj_Entries b)]>
             (<["crypto" := match bj_Crypto b with Some c => AMap c | None => ANil end]>
             (<["encryptor" := AString (bj_Encryptor b)]>
             (<["version" := AFloat64 (inject_Z (bj_Version b))]> ∅)))));
  json_Unmarshal_batchJSON := λ d,
    match d with
    | AMap m =>
        entries ← match m !! "entries" with
                  | None | Some ANil => Ok []
                  | Some (ASlice l) => Ok l
                  | Some _ => Err (New "json: cannot unmarshal into field entries")
                  end;
        crypto ← match m !! "crypto" with
                 | None | Some ANil => Ok None
                 | Some (AMap c) => Ok (Some c)
                 | Some _ => Err (New "json: cannot unmarshal into field crypto")
                 end;
        enc ← field_string m "encryptor";
        ver ← match m !! "version" with
              | None | Some ANil => Ok 0
              | Some (AFloat64 q) =>
                  if (Qden q =? 1)%positive then Ok (Qnum q)
                  else Err (New "json: cannot unmarshal number into field version")
              | Some _ => Err (New "json: cannot unmarshal into field version")
              end;
        Ok {| bj_Entries := entries; bj_Crypto := crypto; bj_Encryptor := enc;
              bj_Version := ver |}
    | _ => Err (New "json: cannot unmarshal into Go value of type batchJSON")
    end;
|}.

(** The persisted index is the document of its name→ID pairs. *)
#[export] Instance indexer : IndexerLib := {|
  Index_Serialize := λ i, Ok (AMap ((λ id, AString (uuid_String id)) <$> ids i));
  indexer_Deserialize := λ d,
    match d with
    | AMap m =>
        map_fold (λ name v acc,
          i ← acc;
          match v with
          | AString s => id ← uuid_Parse s; Ok (Index_Add id name i)
          | _ => Err (New "json: cannot unmarshal index entry")
          end) (Ok indexer_New) m
    | _ => Err (New "json: cannot unmarshal index")
    end;
|}.

(** An in-memory Store.  [ss_reads], when set, is the number of
    [RetrieveAccount] calls that the backend still answers before it starts
    failing. *)
Record mem := {
  ss_wallets : gmap string any;
  ss_accounts : list (N * N * any);
  ss_indices : gmap N any;
  ss_batches : gmap N any;
  ss_reads : option nat;
}.

Definition empty_mem : mem :=
  {| ss_wallets := ∅; ss_accounts := []; ss_indices := ∅; ss_batches := ∅;
     ss_reads := None |}.

Definition mem_RetrieveWallet (s : mem) (name : string) : result any * mem :=
  match ss_wallets s !! name with
  | Some d => (Ok d, s)
  | None => (Err (New "wallet not found"), s)
  end.

Definition mem_StoreWallet (s : mem) (id : N) (name : string) (d : any)
  : result unit * mem :=
  (Ok (), {| ss_wallets := <[name := d]> (ss_wallets s); ss_accounts := ss_accounts s;
             ss_indices := ss_indices s; ss_batches := ss_batches s;
             ss_reads := ss_reads s |}).

Definition find_account (l : list (N * N * any)) (wid aid : N) : option any :=
  snd <$> list_find (λ r, r.1 = (wid, aid)) l ≫= λ r, Some r.2.

Definition mem_RetrieveAccount (s : mem) (wid aid : N) : result any * mem :=
  match ss_reads s with
  | Some O => (Err (New "store unavailable"), s)
  | reads =>
      let s := {| ss_wallets := ss_wallets s; ss_accounts := ss_accounts s;
                  ss_indices := ss_indices s; ss_batches := ss_batches s;
                  ss_reads := pred <$> reads |} in
      match find_account (ss_accounts s) wid aid with
      | Some d => (Ok d, s)
      | None => (Err (New "account not found"), s)
      end
  end.

Definition mem_StoreAccount (s : mem) (wid aid : N) (d : any) : result unit * mem :=
  (Ok (), {| ss_wallets := ss_wallets s;
             ss_accounts :=
               (filter (λ r, r.1 ≠ (wid, aid)) (ss_accounts s) ++ [(wid, aid, d)])%list;
             ss_indices := ss_indices s; ss_batches := ss_batches s;
             ss_reads := ss_reads s |}).

Definition mem_RetrieveAccounts (s : mem) (wid : N) : list any * mem :=
  (snd <$> filter (λ r, r.1.1 = wid) (ss_accounts s), s).

Definition mem_RetrieveAccountsIndex (s : mem) (wid : N) : result any * mem :=
  match ss_indices s !! wid with
  | Some d => (Ok d, s)
  | None => (Err (New "index not found"), s)
  end.

Definition mem_StoreAccountsIndex (s : mem) (wid : N) (d : any) : result unit * mem :=
  (Ok (), {| ss_wallets := ss_wallets s; ss_accounts := ss_accounts s;
             ss_indices := <[wid := d]> (ss_indices s); ss_batches := ss_batches s;
             ss_reads := ss_reads s |}).

Definition mem_RetrieveBatch (s : mem) (wid : N) : result any * mem :=
  match ss_batches s !! wid with
  | Some d => (Ok d, s)
  | None => (Err (New "batch not found"), s)
  end.

Definition mem_StoreBatch (s : mem) (wid : N) (name : string) (d : any)
  : result unit * mem :=
  (Ok (), {| ss_wallets := ss_wallets s; ss_accounts := ss_accounts s;
             ss_indices := ss_indices s; ss_batches := <[wid := d]> (ss_batches s);
             ss_reads := ss_reads s |}).

(** The in-memory Store without and with the batch interfaces. *)
Definition plain_store : StoreLib := {|
  store := mem;
  store_Name := "scratch";
  RetrieveWallet := mem_RetrieveWallet;
  StoreWallet := mem_StoreWallet;
  RetrieveAccount := mem_RetrieveAccount;
  StoreAccount := mem_StoreAccount;
  RetrieveAccounts := mem_RetrieveAccounts;
  RetrieveAccountsIndex := mem_RetrieveAccountsIndex;
  StoreAccountsIndex := mem_StoreAccountsIndex;
  BatchRetriever := None;
  BatchStorer := None;
|}.

Definition batch_store : StoreLib := {|
  store := mem;
  store_Name := "scratch";
  RetrieveWallet := mem_RetrieveWallet;
  StoreWallet := mem_StoreWallet;
  RetrieveAccount := mem_RetrieveAccount;
  StoreAccount := mem_StoreAccount;
  RetrieveAccounts := mem_RetrieveAccounts;
  RetrieveAccountsIndex := mem_RetrieveAccountsIndex;
  StoreAccountsIndex := mem_StoreAccountsIndex;
  BatchRetriever := Some mem_RetrieveBatch;
  BatchStorer := Some mem_StoreBatch;
|}.

End Sim.

(** ** Runs on the reference implementation *)
Module Examples.
Import Sim.

Definition key (x : byte) : bytes := replicate 32 x.
Definition share (x : byte) : bytes := replicate 48 x.

Definition three_participants : gmap N string :=
  <[1%N := "foo"]> (<[2%N := "bar"]> (<[3%N := "baz"]> ∅)).

Definition account_passphrase : string := "aep7beejaChieVei4mongie9".

Definition with_reads (s : mem) (reads : option nat) : mem :=
  {| ss_wallets := ss_wallets s; ss_accounts := ss_accounts s;
     ss_indices := ss_indices s; ss_batches := ss_batches s; ss_reads := reads |}.


(** An account as ImportDistributedAccount builds it, with two shares. *)
Definition sample_account : account :=
  {| a_id := 7%N; a_name := "Test account";
     a_verificationVector := [share xb7; share xa3];
     a_signingThreshold := 2;
     a_participants := three_participants;
     a_crypto := Some (<["secret" := AString (Sprintf_x (key x0a))]>
                      (<["passphrase" := AString "secret"]> ∅));
     a_secretKey := None;
     a_publicKey := PrivateKey_PublicKey (key x0a);
     a_version := 4;
     a_encryptor := encryptor |}.

(** The record of [sample_account] with another version number. *)
Definition sample_record (ver : Q) : gmap string any :=
  <["version" := AFloat64 ver]> (account_data sample_account).

(** A wallet as OpenWallet reads it, and a Store holding the record of
    [sample_account] next to a record that is not an account. *)
Definition opened_wallet : wallet :=
  unmarshalled_wallet 100%N "test wallet" 1 encryptor.

Definition mixed_records : mem :=
  {| ss_wallets := ∅;
     ss_accounts := [(100%N, 7%N, AMap (account_data sample_account));
                     (100%N, 8%N, AString "not an account")];
     ss_indices := ∅; ss_batches := ∅; ss_reads := None |}.

Section OnBatchStore.
#[local] Existing Instance batch_store.






End OnBatchStore.

Section OnPlainStore.
#[local] Existing Instance plain_store.

Definition plain_wallet : option (wallet * mem) :=
  match CreateWallet 100%N "test wallet" empty_mem encryptor with
  | (Ok _, Some w, s) => Some (w, s)
  | _ => None
  end.

(** An import during which the backend answers one more read and then
    fails. *)
Definition interrupted_import : option (result account * wallet * mem) :=
  match plain_wallet with
  | Some (w, s) =>
      let '(_, w) := wallet_Unlock w "" in
      Some (wallet_ImportDistributedAccount w (with_reads s (Some 1%nat)) (Ok 1%N)
              "account 1" (key x0a) 3 [share xb5; share xb8; share xa4]
              three_participants account_passphrase)
  | None => None
  end.






End OnPlainStore.

End Examples.
(** * Properties *)

(** ** Text round trips *)

Lemma hex_byte_decode (b : byte) (r : string) :
  hex_DecodeString (String.append (hex_byte b) r) =
  match hex_DecodeString r with Ok bs => Ok (b :: bs) | Err e => Err e end.
Proof. destruct b; reflexivity. Qed.

Lemma hex_roundtrip (b : bytes) : hex_DecodeString (Sprintf_x b) = Ok b.
Proof.
  induction b as [|x r IH]; [reflexivity|].
  cbn [Sprintf_x]. rewrite hex_byte_decode, IH. reflexivity.
Qed.

Lemma TrimPrefix_Sprintf_x (b : bytes) : TrimPrefix_0x (Sprintf_x b) = Sprintf_x b.
Proof.
  destruct b as [|x r]; [reflexivity|].
  cbn [Sprintf_x]. destruct x; reflexivity.
Qed.

Lemma to_uint_nonnil (n : N) : N.to_uint n ≠ Decimal.Nil.
Proof.
  intros H. 
  assert (Hn : N.of_uint (N.to_uint n) = n) by apply DecimalN.Unsigned.of_to.
  rewrite H in Hn. cbn in Hn. subst n. cbn in H. discriminate.
Qed.

Lemma uint_of_string_Sprintf_d (n : N) :
  NilZero.uint_of_string (Sprintf_d n) = Some (N.to_uint n).
Proof. apply NilZero.usu, to_uint_nonnil. Qed.

Lemma ParseUint64_Sprintf_d (n : N) : (n < 2 ^ 64)%N → ParseUint64 (Sprintf_d n) = Ok n.
Proof.
  intros Hn. unfold ParseUint64. rewrite uint_of_string_Sprintf_d.
  rewrite DecimalN.Unsigned.of_to.
  destruct (N.ltb_spec n (2 ^ 64)); [reflexivity | lia].
Qed.

#[global] Instance Sprintf_d_inj : Inj (=) (=) Sprintf_d.
Proof.
  intros a b H.
  apply DecimalN.Unsigned.to_uint_inj.
  assert (Ha := uint_of_string_Sprintf_d a). rewrite H, uint_of_string_Sprintf_d in Ha.
  congruence.
Qed.

Lemma Qtrunc_inject_Z (z : Z) : Qtrunc (inject_Z z) = z.
Proof. unfold Qtrunc. cbn. apply Z.quot_1_r. Qed.

Lemma float64_to_uint_inject_Z bits oor z :
  0 ≤ z < 2 ^ bits → float64_to_uint bits oor (inject_Z z) = z.
Proof.
  intros Hz. unfold float64_to_uint. rewrite Qtrunc_inject_Z.
  destruct (Z.leb_spec 0 z), (Z.ltb_spec z (2 ^ bits)); simpl; lia.
Qed.

Lemma float64_to_uint_in_range bits oor q :
  0 ≤ Qtrunc q < 2 ^ bits → float64_to_uint bits oor q = Qtrunc q.
Proof.
  intros Hz. unfold float64_to_uint.
  destruct (Z.leb_spec 0 (Qtrunc q)), (Z.ltb_spec (Qtrunc q) (2 ^ bits)); simpl; lia.
Qed.

Lemma uint32_small (z : Z) : 0 ≤ z < 2 ^ 32 → uint32 z = z.
Proof. intros. unfold uint32. apply Z.mod_small. lia. Qed.

Lemma uint32_le (z : Z) : 0 ≤ z → uint32 z ≤ z.
Proof. intros. unfold uint32. apply Z.mod_le; lia. Qed.

Section Properties.
Context `{!UUIDLib, !BLSLib, !JSONLib, !GoImpl, !Keystorev4Lib, !JSONStructLib,
          !IndexerLib, !StoreLib}.

Lemma participants_strings_kmap (p : gmap N string) :
  participants_strings p = kmap Sprintf_d (AString <$> p).
Proof.
  unfold participants_strings.
  apply (map_fold_weak_ind (λ r m, r = kmap Sprintf_d (AString <$> m))).
  - by rewrite fmap_empty, kmap_empty.
  - intros i x m r Hi ->. rewrite fmap_insert, kmap_insert; [done | apply _].
Qed.

Lemma unmarshal_participants_kmap (p : gmap N string) :
  (∀ k, is_Some (p !! k) → (k < 2 ^ 64)%N) →
  unmarshal_participants (kmap Sprintf_d (AString <$> p)) = Ok p.
Proof.
  unfold unmarshal_participants.
  generalize (eq_refl (kmap (M2:=gmap string) Sprintf_d (AString <$> p))).
  generalize (kmap (M2:=gmap string) Sprintf_d (AString <$> p)) at 1 3.
  intros m. revert p.
  apply (map_fold_weak_ind (λ r m, ∀ p : gmap N string,
    m = kmap Sprintf_d (AString <$> p) →
    (∀ k, is_Some (p !! k) → (k < 2 ^ 64)%N) → r = Ok p)).
  - intros p Hp _. symmetry in Hp. apply kmap_empty_iff in Hp; [|apply _].
    apply fmap_empty_iff in Hp. by subst.
  - intros i x m0 r Hi IH p Hp Hb.
    assert (Hl : kmap (M2:=gmap string) Sprintf_d (AString <$> p) !! i = Some x)
      by (rewrite <- Hp; apply lookup_insert_eq).
    apply lookup_kmap_Some in Hl as (k & -> & Hk); [|apply _].
    rewrite lookup_fmap in Hk. destruct (p !! k) as [v|] eqn:Hpk; [|done].
    simpl in Hk. injection Hk as <-.
    assert (Hm0 : m0 = kmap Sprintf_d (AString <$> delete k p)).
    { rewrite fmap_delete, kmap_delete by apply _. rewrite <- Hp.
      rewrite delete_insert_eq. symmetry. by apply delete_id. }
    rewrite (IH (delete k p) Hm0).
    + simpl. rewrite ParseUint64_Sprintf_d by (apply Hb; eauto). simpl.
      f_equal. rewrite insert_delete_eq. by apply insert_id.
    + intros k' [v' Hv']. apply Hb. exists v'.
      apply lookup_delete_Some in Hv'. tauto.
Qed.

(** ** Serialization of accounts *)

Lemma account_data_lookup (a : account) :
  account_data a !! "uuid" = Some (AString (uuid_String (a_id a))) ∧
  account_data a !! "name" = Some (AString (a_name a)) ∧
  account_data a !! "pubkey" =
    Some (AString (Sprintf_x (PublicKey_Marshal (a_publicKey a)))) ∧
  account_data a !! "verificationvector" =
    Some (ASlice ((λ k, AString (Sprintf_x (PublicKey_Marshal k)))
                    <$> a_verificationVector a)) ∧
  account_data a !! "participants" =
    Some (AMap (participants_strings (a_participants a))) ∧
  account_data a !! "signing_threshold" =
    Some (AFloat64 (inject_Z (a_signingThreshold a))) ∧
  account_data a !! "crypto" =
    Some (match a_crypto a with Some c => AMap c | None => ANil end) ∧
  account_data a !! "version" = Some (AFloat64 (inject_Z (a_version a))).
Proof. unfold account_data. repeat split; by simplify_map_eq. Qed.

Lemma unmarshal_verificationVector_marshal (l : list PublicKey) (i : Z) :
  Forall (λ k, BLSPublicKeyFromBytes (PublicKey_Marshal k) = Ok k) l →
  unmarshal_verificationVector i
    ((λ k, AString (Sprintf_x (PublicKey_Marshal k))) <$> l) = Ok l.
Proof.
  intros Hl. revert i. induction Hl as [|k l Hk Hl IH]; intros i; [done|].
  cbn. rewrite TrimPrefix_Sprintf_x, hex_roundtrip. cbn. rewrite Hk. cbn.
  by rewrite IH.
Qed.

(** C8. A well-formed account whose encryptor version is 4 survives
    MarshalJSON followed by UnmarshalJSON: the account read back has the same
    id, name, public key, verification vector, signing threshold,
    participants, crypto record and version. *)
Theorem marshal_unmarshal_roundtrip (a : account) :
  account_wf a →
  a_version a = 4 →
  json_faithful (AMap (account_data a)) →
  ∃ d a',
    account_MarshalJSON a = Ok d ∧
    account_UnmarshalJSON d = Ok a' ∧
    a_id a' = a_id a ∧
    a_name a' = a_name a ∧
    a_publicKey a' = a_publicKey a ∧
    a_verificationVector a' = a_verificationVector a ∧
    a_signingThreshold a' = a_signingThreshold a ∧
    a_participants a' = a_participants a ∧
    a_crypto a' = a_crypto a ∧
    a_version a' = a_version a.
Proof.
  intros Hwf Hv (d & Hm & Hu). destruct Hwf.
  destruct wf_crypto0 as [c Hc].
  exists d.
  eexists. split; [unfold account_MarshalJSON; by rewrite Hm|].
  unfold account_UnmarshalJSON, json_Unmarshal_map. rewrite Hu. cbn.
  unfold account_UnmarshalJSON_map.
  destruct (account_data_lookup a) as (-> & -> & -> & -> & -> & -> & -> & ->).
  cbn. rewrite wf_id0. cbn.
  rewrite TrimPrefix_Sprintf_x, hex_roundtrip. cbn. rewrite wf_publicKey0. cbn.
  rewrite unmarshal_verificationVector_marshal by done. cbn.
  rewrite participants_strings_kmap, unmarshal_participants_kmap by done. cbn.
  unfold uint32_of_float64. rewrite float64_to_uint_inject_Z by done.
  assert (Hlow : (a_signingThreshold a <=?
                  uint32 (Z.of_nat (size (a_participants a)) / 2)) = false).
  { apply Z.leb_gt. pose proof (uint32_le (Z.of_nat (size (a_participants a)) / 2)).
    assert (0 ≤ Z.of_nat (size (a_participants a)) / 2) by (apply Z.div_pos; lia).
    lia. }
  rewrite Hlow, Hc, Hv. unfold uint_of_float64.
  rewrite float64_to_uint_inject_Z by lia.
  cbn. split; [reflexivity|]. done.
Qed.

(** ** Locking *)


(** C6. Unlocking a locked account with a passphrase under which the
    crypto record does not decrypt returns the error "incorrect passphrase"
    and leaves the account as it was: Sign and PrivateKey still fail. *)
Theorem unlock_incorrect_passphrase (a : account) (passphrase : string) (e : error) :
  a_secretKey a = None →
  enc_Decrypt (a_encryptor a) (a_crypto a) passphrase = Err e →
  account_Unlock a passphrase = (Err (New "incorrect passphrase"), a) ∧
  account_IsUnlocked (account_Unlock a passphrase).2 = false ∧
  (∀ d, account_Sign (account_Unlock a passphrase).2 d =
        Err (New "cannot sign when account is locked")) ∧
  account_PrivateKey (account_Unlock a passphrase).2 =
    Err (New "cannot provide private key when account is locked").
Proof.
  intros Hlocked Hdec.
  assert (Hu : account_Unlock a passphrase = (Err (New "incorrect passphrase"), a)).
  { unfold account_Unlock. by rewrite Hlocked, Hdec. }
  rewrite Hu. cbn. unfold account_IsUnlocked, account_Sign, account_PrivateKey.
  by rewrite Hlocked.
Qed.

(** ** The version gate of UnmarshalJSON *)

Lemma uint_of_float64_in_range (q : Q) :
  0 ≤ Qtrunc q < 2 ^ 64 → uint_of_float64 q = Qtrunc q.
Proof. apply float64_to_uint_in_range. Qed.

(** C10, for the conversion the code applies.  A record whose version is a
    number that the conversion [uint(version)] (the integer part of the
    float64) does not turn into 4 is refused; when every other field is
    valid, that is, when the same record with version 4 is accepted, the
    error is "unsupported keystore version". *)
Theorem unmarshal_unsupported_version (d : data) (v : gmap string any) (q : Q) :
  json_Unmarshal_map d = Ok v →
  v !! "version" = Some (AFloat64 q) →
  uint_of_float64 q ≠ 4 →
  is_ok (account_UnmarshalJSON d) = false ∧
  (∀ a, account_UnmarshalJSON_map (<["version" := AFloat64 (inject_Z 4)]> v) = Ok a →
        account_UnmarshalJSON d = Err (New "unsupported keystore version")).
Proof.
  intros Hd Hver Hq.
  assert (Hne : (uint_of_float64 q =? 4) = false) by by apply Z.eqb_neq.
  unfold account_UnmarshalJSON. rewrite Hd. cbn.
  unfold account_UnmarshalJSON_map.
  rewrite (lookup_insert_ne v "version" "uuid"), (lookup_insert_ne v "version" "name"),
    (lookup_insert_ne v "version" "pubkey"),
    (lookup_insert_ne v "version" "verificationvector"),
    (lookup_insert_ne v "version" "participants"),
    (lookup_insert_ne v "version" "signing_threshold"),
    (lookup_insert_ne v "version" "crypto") by done.
  rewrite lookup_insert_eq, Hver. cbn.
  repeat (match goal with
          | |- context [mbind _ ?x] =>
              lazymatch x with
              | Ok _ => fail
              | _ => destruct x eqn:?
              end
          end; cbn; try (split; [done | by intros ?])).
  by rewrite Hne.
Qed.

(** ** Accounts materialized from a batch *)

Lemma entry_account_fields (w : wallet) (e : batchEntry) (a : account) :
  entry_account w e = Ok a →
  a_crypto a = None ∧ a_secretKey a = None ∧ a_encryptor a = w_encryptor w.
Proof.
  unfold entry_account. intros Ha.
  destruct (wrap (BLSPublicKeyFromBytes (be_pubkey e)) _); [|done]. cbn in Ha.
  destruct (entry_verificationVector 0 (be_verificationVector e)); [|done]. cbn in Ha.
  destruct (entry_participants (be_participants e)); [|done]. cbn in Ha.
  by simplify_eq.
Qed.

(** Unlock on an account made from a batch entry hands the encryptor of the
    wallet an absent crypto record, whatever the batch holds: when the
    encryptor refuses it, so does Unlock, for every passphrase. *)
Lemma materialized_account_unlock (w : wallet) (e : batchEntry) (a : account)
    (passphrase : string) (err : error) :
  entry_account w e = Ok a →
  enc_Decrypt (w_encryptor w) None passphrase = Err err →
  account_Unlock a passphrase = (Err (New "incorrect passphrase"), a).
Proof.
  intros (Hc & Hk & He)%entry_account_fields Hd.
  unfold account_Unlock. by rewrite Hk, He, Hc, Hd.
Qed.

(** ** Enumeration of accounts *)

(** C9. When no batch with entries is present after the batch has been
    looked for, Accounts delivers the records of the Store that deserialize,
    in the order of the Store; a record that does not deserialize is left
    out, and the enumeration itself reports nothing. *)
Theorem accounts_without_batch (w w1 : wallet) (s s1 s2 : store) (r : result unit)
    (records : list data) :
  wallet_retrieveBatchIfRequired w s = (r, w1, s1) →
  batch_present w1 = false →
  RetrieveAccounts s1 (w_id w1) = (records, s2) →
  ∃ accounts,
    wallet_Accounts w s = (accounts, w1, s2) ∧
    (∀ a, a ∈ accounts ↔ ∃ d, d ∈ records ∧ deserializeAccount w1 d = Ok a) ∧
    length accounts = length (filter (λ d, is_ok (deserializeAccount w1 d) = true) records) ∧
    accounts = omap (λ d, match deserializeAccount w1 d with
                          | Ok a => Some a
                          | Err _ => None
                          end) records.
Proof.
  intros Hb Hp Hr. eexists. split.
  { unfold wallet_Accounts. rewrite Hb, Hp, Hr. reflexivity. }
  split; [|split; [|reflexivity]].
  - intros a. rewrite list_elem_of_omap. split.
    + intros (d & Hd & Ha). exists d. split; [done|].
      by destruct (deserializeAccount w1 d) as [a'|]; simplify_eq.
    + intros (d & Hd & Ha). exists d. by rewrite Ha.
  - clear Hr. induction records as [|d records IH]; [done|].
    rewrite filter_cons. cbn.
    destruct (deserializeAccount w1 d); cbn.
    + rewrite decide_True by done. cbn. by rewrite IH.
    + rewrite decide_False by done. apply IH.
Qed.

(** ** Building a batch *)






(** ** Validation in ImportDistributedAccount *)

Lemma HasPrefix_underscore_get (name : string) :
  HasPrefix_underscore name = bool_decide (String.get 0 name = Some "_"%char).
Proof.
  destruct name as [|c r]; [done|]. cbn.
  destruct (decide (c = "_"%char)) as [->|Hc]; [done|].
  rewrite bool_decide_eq_false_2 by congruence.
  destruct c as [[] [] [] [] [] [] [] []]; done.
Qed.

Lemma len_zero {A} (l : list A) : (len l =? 0) = bool_decide (l = []).
Proof. by destruct l. Qed.

Lemma size_zero (m : gmap N string) : (Z.of_nat (size m) =? 0) = bool_decide (m = ∅).
Proof.
  destruct (decide (m = ∅)) as [->|Hm].
  - by rewrite map_size_empty.
  - rewrite bool_decide_eq_false_2 by done. apply Z.eqb_neq.
    intros Hs. apply Hm, map_size_empty_iff. lia.
Qed.

(** The seven checks on the arguments, as the code computes them, agree
    with the words of the specification when the lengths fit 32 bits. *)
Lemma threshold_check (t n : Z) :
  0 ≤ n → n / 2 < 2 ^ 32 →
  (t <=? uint32 (n / 2)) = negb (bool_decide (n / 2 < t)).
Proof.
  intros Hn Hb. rewrite uint32_small by (split; [apply Z.div_pos; lia | done]).
  destruct (decide (n / 2 < t)).
  - rewrite bool_decide_eq_true_2 by done. apply Z.leb_gt. lia.
  - rewrite bool_decide_eq_false_2 by done. apply Z.leb_le. lia.
Qed.

Lemma vector_check (t : Z) (vv : list bytes) :
  len vv < 2 ^ 32 →
  negb (uint32 (len vv) =? t) = negb (bool_decide (len vv = t)).
Proof.
  intros Hb. rewrite uint32_small by (unfold len in *; lia). f_equal.
  destruct (decide (len vv = t)).
  - rewrite bool_decide_eq_true_2 by done. by apply Z.eqb_eq.
  - rewrite bool_decide_eq_false_2 by done. by apply Z.eqb_neq.
Qed.

(** C2. ImportDistributedAccount performs its nine checks in the order of
    the specification and returns at the first that fails: whatever checks
    an input violates, the error is that of the earliest one. *)
Theorem import_reports_earliest_violation (w : wallet) (s : store) (newid : result UUID)
    (name : string) (privatekey : bytes) (signingThreshold : Z)
    (verificationVector : list bytes) (participants : gmap N string)
    (passphrase : string) (e : error) :
  len verificationVector < 2 ^ 32 →
  Z.of_nat (size participants) / 2 < 2 ^ 32 →
  earliest_violation
    (import_checks w s name privatekey signingThreshold verificationVector participants)
    = Some e →
  (wallet_ImportDistributedAccount w s newid name privatekey signingThreshold
     verificationVector participants passphrase).1.1 = Err e.
Proof.
  intros Hvv Hp. unfold earliest_violation, import_checks, wallet_ImportDistributedAccount.
  rewrite HasPrefix_underscore_get, !len_zero, size_zero.
  rewrite threshold_check, vector_check by lia.
  replace (String.eqb name "") with (bool_decide (name = ""))
    by (destruct name; done).
  cbn [List.find fst snd].
  repeat (match goal with
          | |- context [bool_decide ?P] => destruct (bool_decide P); cbn
          end; try (intros; by simplify_eq)).
  destruct (w_unlocked w); cbn; [|intros; by simplify_eq].
  destruct (wallet_AccountByName w s name) as [[[a|e'] w'] s']; cbn;
    intros; by simplify_eq.
Qed.

(** C4. ImportDistributedAccount succeeds only if the threshold exceeds half
    the number of participants (integer division) and the verification
    vector has exactly that many entries.  With otherwise acceptable
    arguments, threshold 1 with 3 participants fails with "invalid signing
    threshold:participant ratio", and threshold 3 with 3 participants and a
    verification vector of 2 entries fails with "verification vector
    invalid". *)
Theorem import_threshold_rule (w : wallet) (s : store) (newid : result UUID)
    (name : string) (privatekey : bytes) (signingThreshold : Z)
    (verificationVector : list bytes) (participants : gmap N string)
    (passphrase : string) :
  len verificationVector < 2 ^ 32 →
  Z.of_nat (size participants) / 2 < 2 ^ 32 →
  let r := (wallet_ImportDistributedAccount w s newid name privatekey signingThreshold
              verificationVector participants passphrase).1.1 in
  (is_ok r = true →
     signingThreshold > Z.of_nat (size participants) / 2 ∧
     len verificationVector = signingThreshold) ∧
  (name ≠ "" → HasPrefix_underscore name = false → privatekey ≠ [] →
   verificationVector ≠ [] →
   signingThreshold = 1 → size participants = 3%nat →
   r = Err (New "invalid signing threshold:participant ratio")) ∧
  (name ≠ "" → HasPrefix_underscore name = false → privatekey ≠ [] →
   signingThreshold = 3 → size participants = 3%nat →
   length verificationVector = 2%nat →
   r = Err (New "verification vector invalid")).
Proof.
  intros Hvv Hp r. subst r. unfold wallet_ImportDistributedAccount.
  rewrite !len_zero, size_zero.
  rewrite threshold_check, vector_check by lia.
  replace (String.eqb name "") with (bool_decide (name = ""))
    by (destruct name; done).
  split; [|split].
  - repeat (match goal with
            | |- context [bool_decide ?P] => destruct (decide P);
                [rewrite (bool_decide_eq_true_2 P) by done
                |rewrite (bool_decide_eq_false_2 P) by done]; cbn
            | |- context [if HasPrefix_underscore ?n then _ else _] =>
                destruct (HasPrefix_underscore n); cbn
            end; try done).
    intros _. split; [lia|done].
  - intros Hn Hu Hk Hv -> Hs.
    rewrite (bool_decide_eq_false_2 (name = "")), Hu by done.
    rewrite (bool_decide_eq_false_2 (privatekey = [])) by done.
    rewrite (bool_decide_eq_false_2 (verificationVector = [])) by done.
    rewrite (bool_decide_eq_false_2 (participants = ∅))
      by (intros ->; by rewrite map_size_empty in Hs).
    rewrite Hs. done.
  - intros Hn Hu Hk -> Hs Hl.
    rewrite (bool_decide_eq_false_2 (name = "")), Hu by done.
    rewrite (bool_decide_eq_false_2 (privatekey = [])) by done.
    rewrite (bool_decide_eq_false_2 (verificationVector = []))
      by (intros ->; done).
    rewrite (bool_decide_eq_false_2 (participants = ∅))
      by (intros ->; by rewrite map_size_empty in Hs).
    rewrite Hs. unfold len. rewrite Hl. done.
Qed.

(** ** Rebuilding the index *)




Lemma materialize_keeps (w w' : wallet) (entries : list batchEntry) (r : result unit) :
  materialize w entries = (r, w') →
  w_id w' = w_id w ∧ w_index w' = w_index w ∧ w_batch w' = w_batch w.
Proof.
  revert w. induction entries as [|e l IH]; intros w Hm; cbn in Hm.
  - by simplify_eq.
  - destruct (entry_account w e); [|by simplify_eq].
    by apply IH in Hm.
Qed.

Lemma retrieveBatchIfRequired_keeps (w w' : wallet) (s s' : store) (r : result unit) :
  wallet_retrieveBatchIfRequired w s = (r, w', s') →
  w_id w' = w_id w ∧ w_index w' = w_index w.
Proof.
  unfold wallet_retrieveBatchIfRequired, wallet_retrieveAccountsBatch. intros Hr.
  destruct (w_batch w); [by simplify_eq|].
  destruct BatchRetriever as [RetrieveBatch|]; [|by simplify_eq].
  cbn in Hr. destruct (RetrieveBatch s (w_id w)) as [[d|e] s1]; [|by simplify_eq].
  destruct (json_Unmarshal_with batch_UnmarshalJSON d) as [res|e]; [|by simplify_eq].
  destruct (materialize _ _) as [r' w1] eqn:Hm. simplify_eq.
  apply materialize_keeps in Hm as (? & ? & _). done.
Qed.


(** ** Failure of an import *)

Lemma Index_Remove_gone (id : UUID) (name : string) (i : Index) :
  Index_ID (Index_Remove id name i) name = None ∧
  Index_Name (Index_Remove id name i) id = None.
Proof. unfold Index_ID, Index_Name, Index_Remove. cbn. by rewrite !lookup_delete_eq. Qed.

Lemma AccountByID_keeps (w w' : wallet) (s s' : store) (id : UUID) (r : result account) :
  wallet_AccountByID w s id = (r, w', s') →
  w_id w' = w_id w ∧ w_index w' = w_index w.
Proof.
  unfold wallet_AccountByID. intros Hr.
  destruct (wallet_retrieveBatchIfRequired w s) as [[r0 w0] s0] eqn:Hb.
  apply retrieveBatchIfRequired_keeps in Hb as [Hid Hidx].
  destruct (if batch_present w0 then w_accounts w0 !! id else None); [by simplify_eq|].
  destruct (RetrieveAccount s0 (w_id w0) id) as [[d|e] s1]; [|by simplify_eq].
  destruct (deserializeAccount w0 d); by simplify_eq.
Qed.

Lemma AccountByName_keeps (w w' : wallet) (s s' : store) (name : string)
    (r : result account) :
  wallet_AccountByName w s name = (r, w', s') →
  w_id w' = w_id w ∧ w_index w' = w_index w.
Proof.
  unfold wallet_AccountByName. intros Hr.
  destruct (Index_ID (w_index w) name); [by eapply AccountByID_keeps|by simplify_eq].
Qed.

Lemma storeAccount_keeps (a : account) (w w' : wallet) (s s' : store) (r : result unit) :
  account_storeAccount a w s = (r, w', s') → w_index w' = w_index w.
Proof.
  unfold account_storeAccount. intros Hr.
  destruct (wrap (json_Marshal_with (account_MarshalJSON a)) _); [|by simplify_eq].
  destruct (wallet_storeAccountsIndex w s) as [[[]|e] s0]; [|by simplify_eq].
  destruct (StoreAccount s0 (w_id w) (a_id a) a0) as [[[]|e] s1]; [|by simplify_eq].
  destruct (wallet_AccountByName w s1 (a_name a)) as [[r1 w1] s2] eqn:Hn.
  apply AccountByName_keeps in Hn as [_ Hn].
  destruct r1; [|by simplify_eq].
  destruct (wallet_AccountByID w1 s2 (a_id a)) as [[r2 w2] s3] eqn:Hi.
  apply AccountByID_keeps in Hi as [_ Hi].
  destruct r2; simplify_eq; congruence.
Qed.

(** The part of the rollback that the code performs.  After a failed
    ImportDistributedAccount the index of the wallet is either the one it
    was, or the one it was with the pair of the new account added and
    removed again; by [Index_Remove_gone] it then knows neither the name nor
    the identifier. *)
Lemma failed_import_index (w w' : wallet) (s s' : store) (newid : result UUID)
    (name : string) (privatekey : bytes) (signingThreshold : Z)
    (verificationVector : list bytes) (participants : gmap N string)
    (passphrase : string) (e : error) :
  wallet_ImportDistributedAccount w s newid name privatekey signingThreshold
    verificationVector participants passphrase = (Err e, w', s') →
  w_index w' = w_index w ∨
  ∃ id, newid = Ok id ∧
        w_index w' = Index_Remove id name (Index_Add id name (w_index w)).
Proof.
  unfold wallet_ImportDistributedAccount. intros Hr.
  repeat (match type of Hr with
          | context [if ?c then _ else _] => destruct c; [by left; simplify_eq|]
          end).
  cbn in Hr. destruct (w_unlocked w); cbn in Hr; [|by left; simplify_eq].
  destruct (wallet_AccountByName w s name) as [[r1 w1] s1] eqn:Hn.
  apply AccountByName_keeps in Hn as [_ Hn].
  destruct r1; [left; simplify_eq; congruence|].
  destruct newid as [id|]; [|left; simplify_eq; congruence].
  destruct (BLSPrivateKeyFromBytes privatekey); [|left; simplify_eq; congruence].
  destruct (import_verificationVector 0 verificationVector);
    [|left; simplify_eq; congruence].
  destruct (enc_Encrypt _ _ _); [|left; simplify_eq; congruence].
  destruct (account_storeAccount _ _ _) as [[r2 w2] s2] eqn:Hs.
  apply storeAccount_keeps in Hs. cbn in Hs.
  destruct r2; [by simplify_eq|].
  right. exists id. split; [done|]. simplify_eq. cbn. congruence.
Qed.

End Properties.

(** * The properties on concrete runs *)

Section BatchStoreRuns.
Import Sim Examples.
#[local] Existing Instance Sim.batch_store.




End BatchStoreRuns.

Section PlainStoreRuns.
Import Sim Examples.
#[local] Existing Instance Sim.plain_store.

(** C3, evaluated.  The backend answers the read of the first confirmation
    in storeAccount and fails the read of the second.  The import returns
    that error and the pair is removed from the index, but the account that
    the first confirmation read back stays in the account cache and its
    record stays in the Store: on the same wallet AccountByID then finds the
    account and Accounts lists it, while AccountByName does not know it. *)
Theorem interrupted_import_leaves_account :
  match interrupted_import with
  | Some (r, w, s) =>
      r = Err (Wrap (Wrap (New "store unavailable") "failed to retrieve account")
                    "failed to confirm account when retrieveing by ID") ∧
      Index_ID (w_index w) "account 1" = None ∧
      Index_Name (w_index w) 1%N = None ∧
      a_name <$> (w_accounts w !! 1%N) = Some "account 1" ∧
      is_ok (wallet_AccountByID w (with_reads s None) 1%N).1.1 = true ∧
      is_ok (wallet_AccountByName w (with_reads s None) "account 1").1.1 = false ∧
      a_name <$> (wallet_Accounts w (with_reads s None)).1.1 = ["account 1"]
  | None => False
  end.
Proof. vm_compute. repeat split. Qed.

(** C10 does not hold for a fractional version: 4.5 is a number other than
    4, every other field of the record is valid, and UnmarshalJSON accepts
    the record as version 4. *)
Lemma unmarshal_accepts_fractional_version :
  sample_record (9 # 2) !! "version" = Some (AFloat64 (9 # 2)) ∧
  ¬ (9 # 2 == 4 # 1)%Q ∧
  a_version <$> account_UnmarshalJSON (AMap (sample_record (9 # 2))) = Ok 4.
Proof. split; [by vm_compute|]. split; [by vm_compute|]. by vm_compute. Qed.

(** A run of C10: version 99. *)
Lemma unmarshal_unsupported_version_witness :
  json_Unmarshal_map (AMap (sample_record (99 # 1))) = Ok (sample_record (99 # 1)) ∧
  sample_record (99 # 1) !! "version" = Some (AFloat64 (99 # 1)) ∧
  uint_of_float64 (99 # 1) ≠ 4 ∧
  account_UnmarshalJSON (AMap (sample_record (99 # 1)))
    = Err (New "unsupported keystore version").
Proof.
  assert (h1 : json_Unmarshal_map (AMap (sample_record (99 # 1)))
               = Ok (sample_record (99 # 1))) by reflexivity.
  assert (h2 : sample_record (99 # 1) !! "version" = Some (AFloat64 (99 # 1)))
    by (vm_compute; reflexivity).
  assert (h3 : uint_of_float64 (99 # 1) ≠ 4) by (vm_compute; discriminate).
  split; [exact h1|]. split; [exact h2|]. split; [exact h3|].
  refine (proj2 (unmarshal_unsupported_version _ _ _ h1 h2 h3) sample_account _).
  vm_compute. reflexivity.
Defined.

(** A run of C2: the name starts with an underscore, the private key and
    the verification vector are empty, there are no participants and the
    wallet is locked; the error is that of the name. *)
Lemma import_reports_earliest_violation_witness :
  len ([] : list bytes) < 2 ^ 32 ∧
  Z.of_nat (size (∅ : gmap N string)) / 2 < 2 ^ 32 ∧
  earliest_violation (import_checks opened_wallet empty_mem "_x" [] 0 [] ∅)
    = Some (Errorf "invalid account name %q" "_x") ∧
  (wallet_ImportDistributedAccount opened_wallet empty_mem (Ok 1%N) "_x" [] 0 [] ∅
     "passphrase").1.1 = Err (Errorf "invalid account name %q" "_x").
Proof.
  assert (h1 : len ([] : list bytes) < 2 ^ 32) by (vm_compute; reflexivity).
  assert (h2 : Z.of_nat (size (∅ : gmap N string)) / 2 < 2 ^ 32)
    by (vm_compute; reflexivity).
  assert (h3 : earliest_violation (import_checks opened_wallet empty_mem "_x" [] 0 [] ∅)
               = Some (Errorf "invalid account name %q" "_x"))
    by (vm_compute; reflexivity).
  split; [exact h1|]. split; [exact h2|]. split; [exact h3|].
  exact (import_reports_earliest_violation opened_wallet empty_mem (Ok 1%N) "_x" [] 0 []
           ∅ "passphrase" _ h1 h2 h3).
Defined.

(** A run of C4: threshold 1 with three participants. *)
Lemma import_threshold_rule_witness :
  len [share xb5] < 2 ^ 32 ∧
  Z.of_nat (size three_participants) / 2 < 2 ^ 32 ∧
  (wallet_ImportDistributedAccount opened_wallet empty_mem (Ok 1%N) "account 1"
     (key x0a) 1 [share xb5] three_participants account_passphrase).1.1
    = Err (New "invalid signing threshold:participant ratio").
Proof.
  assert (h1 : len [share xb5] < 2 ^ 32) by (vm_compute; reflexivity).
  assert (h2 : Z.of_nat (size three_participants) / 2 < 2 ^ 32)
    by (vm_compute; reflexivity).
  split; [exact h1|]. split; [exact h2|].
  refine (proj1 (proj2 (import_threshold_rule opened_wallet empty_mem (Ok 1%N) "account 1"
           (key x0a) 1 [share xb5] three_participants account_passphrase h1 h2))
           _ _ _ _ _ _); try done.
Defined.

(** A run of C6: [sample_account] and a passphrase that is not its own. *)
Lemma unlock_incorrect_passphrase_witness :
  a_secretKey sample_account = None ∧
  enc_Decrypt (a_encryptor sample_account) (a_crypto sample_account) "wrong passphrase"
    = Err (New "invalid checksum") ∧
  account_Unlock sample_account "wrong passphrase"
    = (Err (New "incorrect passphrase"), sample_account).
Proof.
  assert (h1 : a_secretKey sample_account = None) by reflexivity.
  assert (h2 : enc_Decrypt (a_encryptor sample_account) (a_crypto sample_account)
                 "wrong passphrase" = Err (New "invalid checksum")) by reflexivity.
  split; [exact h1|]. split; [exact h2|].
  exact (proj1 (unlock_incorrect_passphrase sample_account "wrong passphrase" _ h1 h2)).
Defined.

Lemma sample_account_wf : account_wf sample_account.
Proof.
  constructor.
  - by vm_compute.
  - by vm_compute.
  - repeat constructor.
  - by vm_compute.
  - by vm_compute.
  - intros k [v Hv]. revert k v Hv.
    change (map_Forall (λ k _, (k < 2 ^ 64)%N) three_participants).
    apply (bool_decide_unpack _). by vm_compute.
  - by eexists.
Defined.

(** A run of C8: [sample_account]. *)
Lemma marshal_unmarshal_roundtrip_witness :
  account_wf sample_account ∧
  a_version sample_account = 4 ∧
  json_faithful (AMap (account_data sample_account)) ∧
  ∃ d a',
    account_MarshalJSON sample_account = Ok d ∧
    account_UnmarshalJSON d = Ok a' ∧
    a_id a' = a_id sample_account ∧
    a_name a' = a_name sample_account ∧
    a_publicKey a' = a_publicKey sample_account ∧
    a_verificationVector a' = a_verificationVector sample_account ∧
    a_signingThreshold a' = a_signingThreshold sample_account ∧
    a_participants a' = a_participants sample_account ∧
    a_crypto a' = a_crypto sample_account ∧
    a_version a' = a_version sample_account.
Proof.
  assert (h2 : a_version sample_account = 4) by reflexivity.
  assert (h3 : json_faithful (AMap (account_data sample_account)))
    by (eexists; split; reflexivity).
  split; [exact sample_account_wf|]. split; [exact h2|]. split; [exact h3|].
  exact (marshal_unmarshal_roundtrip sample_account sample_account_wf h2 h3).
Defined.

(** A run of C9: one record that deserializes and one that does not. *)
Lemma accounts_without_batch_witness :
  wallet_retrieveBatchIfRequired opened_wallet mixed_records
    = (Ok (), opened_wallet, mixed_records) ∧
  batch_present opened_wallet = false ∧
  RetrieveAccounts mixed_records (w_id opened_wallet)
    = ((mem_RetrieveAccounts mixed_records 100%N).1, mixed_records) ∧
  ∃ accounts,
    wallet_Accounts opened_wallet mixed_records = (accounts, opened_wallet, mixed_records) ∧
    (∀ a, a ∈ accounts ↔
          ∃ d, d ∈ (mem_RetrieveAccounts mixed_records 100%N).1 ∧
               deserializeAccount opened_wallet d = Ok a) ∧
    length accounts =
      length (filter (λ d, is_ok (deserializeAccount opened_wallet d) = true)
                     (mem_RetrieveAccounts mixed_records 100%N).1) ∧
    accounts = omap (λ d, match deserializeAccount opened_wallet d with
                          | Ok a => Some a
                          | Err _ => None
                          end) (mem_RetrieveAccounts mixed_records 100%N).1.
Proof.
  assert (h1 : wallet_retrieveBatchIfRequired opened_wallet mixed_records
               = (Ok (), opened_wallet, mixed_records)) by reflexivity.
  assert (h2 : batch_present opened_wallet = false) by reflexivity.
  assert (h3 : RetrieveAccounts mixed_records (w_id opened_wallet)
               = ((mem_RetrieveAccounts mixed_records 100%N).1, mixed_records))
    by reflexivity.
  split; [exact h1|]. split; [exact h2|]. split; [exact h3|].
  exact (accounts_without_batch opened_wallet opened_wallet mixed_records mixed_records
           mixed_records (Ok ()) _ h1 h2 h3).
Defined.


End PlainStoreRuns.
